(** * The dating application: users, profiles, matching and messaging

    A shallow embedding of [src/theDatingApp.ts].  Every class of the
    TypeScript source becomes a module holding a record and its methods.

    Modelling conventions.
    - a [number] (identifiers, ages, thresholds) is a [Number.t]: NaN,
      the two infinities and the finite values; [===], [!==] and [>=] on
      numbers are [Number.strictEq], its negation and [Number.ge].  An
      array length is a [nat]; an integer literal is read as a number.
    - [string] is [string]; [===] on strings and [Array.prototype.includes]
      on a [string[]] are exact string equality ([String.eqb]).
    - an array is a [list]; [push] appends at the end.
    - [DatingService] methods run in a state monad over the three private
      arrays of the service object.
    - [new Date()] reads the clock: the reading, in milliseconds, is an
      explicit integer argument. *)

From Stdlib Require Import QArith.Qcanon.
From stdpp Require Import base numbers list strings gmap.

Local Open Scope Z_scope.

(** ** JavaScript numbers

    The values of type [number] as far as [===] and [>=] tell them apart:
    NaN, which equals nothing and compares with nothing, the infinities,
    and the finite values.  The finite values are taken among the
    rationals, which hold every finite double; [+0] and [-0], equal under
    [===] and [>=], are the one value 0. *)
Module Number.

Inductive t : Type :=
| NaN
| NegInfinity
| Infinity
| Finite (q : Qc).

(** An integer as a number; array lengths and [length + 1] are such. *)
Definition ofZ (z : Z) : t := Finite (Qc_of_Z z).

(** [a === b] *)
Definition strictEq (a b : t) : bool :=
  match a, b with
  | NegInfinity, NegInfinity => true
  | Infinity, Infinity => true
  | Finite p, Finite q => bool_decide (p = q)
  | _, _ => false
  end.

(** [a >= b] *)
Definition ge (a b : t) : bool :=
  match a, b with
  | NaN, _ | _, NaN => false
  | _, NegInfinity => true
  | Infinity, _ => true
  | Finite p, Finite q => bool_decide (q ≤ p)%Qc
  | _, _ => false
  end.

End Number.

Coercion Number.ofZ : Z >-> Number.t.

Arguments Number.ofZ : simpl never.
Arguments Number.strictEq : simpl never.
Arguments Number.ge : simpl never.

#[global] Instance Number_eq_dec : EqDecision Number.t.
Proof. solve_decision. Defined.

(** ** src/models/User.ts *)
Module User.

Record t : Type := mk
  { id : Number.t;
    name : string;
    email : string;
    password : string }.

Definition verifyPassword (this : t) (inputPassword : string) : bool :=
  String.eqb (password this) inputPassword.

End User.

(** ** src/models/Profile.ts *)
Module Profile.

Record t : Type := mk
  { user : User.t;
    age : Number.t;
    bio : string;
    interests : list string }.

(** The constructor: [interests] starts as the empty array. *)
Definition new (user : User.t) (age : Number.t) (bio : string) : t :=
  mk user age bio [].

Definition addInterest (this : t) (interest : string) : t :=
  mk (user this) (age this) (bio this) (interests this ++ [interest]).

Definition getInterests (this : t) : list string := interests this.

(** [arr.includes(x)] on an array of strings. *)
Fixpoint includes (arr : list string) (x : string) : bool :=
  match arr with
  | [] => false
  | y :: arr' => if String.eqb y x then true else includes arr' x
  end.

(** The local constant [commonInterests] of [match]. *)
Definition commonInterests (this otherProfile : t) : list string :=
  List.filter (fun interest => includes (interests otherProfile) interest)
              (interests this).

(** [match] is a keyword of Rocq, hence the underscore. *)
Definition match_ (this otherProfile : t) : nat :=
  length (commonInterests this otherProfile).

End Profile.

(** ** src/models/Message.ts *)
Module Message.

Record t : Type := mk
  { sender : User.t;
    recipient : User.t;
    content : string;
    timestamp : Z }.

End Message.

(** ** src/models/MatchMaker.ts *)
Module MatchMaker.

(** The object literal [{ profile: p, score: profile.match(p) }]. *)
Record scored : Type := mkScored
  { profile : Profile.t;
    score : nat }.

Definition findMatches (profile0 : Profile.t)
    (potentialMatches : list Profile.t) (minScore : Number.t)
    : list Profile.t :=
  List.map (fun match0 => profile match0)
    (List.filter
       (fun match0 => Number.ge (Z.of_nat (score match0)) minScore)
      (List.map (fun p => mkScored p (Profile.match_ profile0 p))
        (List.filter
           (fun p => negb (Number.strictEq (User.id (Profile.user p))
                             (User.id (Profile.user profile0))))
           potentialMatches))).

End MatchMaker.

(** ** src/services/DatingService.ts *)
Module DatingService.

(** The three private arrays of the service object. *)
Record t : Type := mk
  { users : list User.t;
    profiles : list Profile.t;
    messages : list Message.t }.

(** [new DatingService()] *)
Definition new : t := mk [] [] [].

(** A method is a state transformer over the service object that
    yields the method's return value. *)
Definition M (A : Type) : Type := t -> t * A.

Definition ret {A : Type} (a : A) : M A := fun s => (s, a).

Definition bind {A B : Type} (m : M A) (k : A -> M B) : M B :=
  fun s => let (s', a) := m s in k a s'.

Definition gets {A : Type} (f : t -> A) : M A := fun s => (s, f s).

Definition pushUser (u : User.t) : M unit :=
  fun s => (mk (users s ++ [u]) (profiles s) (messages s), tt).

Definition pushProfile (p : Profile.t) : M unit :=
  fun s => (mk (users s) (profiles s ++ [p]) (messages s), tt).

Definition pushMessage (m : Message.t) : M unit :=
  fun s => (mk (users s) (profiles s) (messages s ++ [m]), tt).

Declare Scope service_scope.
Delimit Scope service_scope with service.
Notation "'let*' x ':=' m 'in' k" := (bind m (fun x => k))
  (at level 10, x name, m at level 100, k at level 200)
  : service_scope.
Notation "m ';;' k" := (bind m (fun _ => k))
  (at level 100, k at level 200, right associativity) : service_scope.

(** [this.users.length + 1] is an integer, exact as a number: an array
    holds fewer than 2^32 elements. *)
Definition createUser (name email password : string) : M User.t :=
  (let* us := gets users in
   let id := Z.of_nat (length us) + 1 in
   let user := User.mk id name email password in
   pushUser user ;;
   ret user)%service.

Definition createProfile (user : User.t) (age : Number.t) (bio : string)
    : M Profile.t :=
  (let profile := Profile.new user age bio in
   pushProfile profile ;;
   ret profile)%service.

(** [now] is the reading of the clock taken by the default argument
    [new Date()] of the [Message] constructor. *)
Definition sendMessage (sender : User.t) (recipientId : Number.t)
    (content : string) (now : Z) : M (option Message.t) :=
  (let* us := gets users in
   match List.find (fun u => Number.strictEq (User.id u) recipientId) us with
   | Some recipient =>
       let message := Message.mk sender recipient content now in
       pushMessage message ;;
       ret (Some message)
   | None => ret None
   end)%service.

Definition getMessages (userId : Number.t) : M (list Message.t) :=
  (let* ms := gets messages in
   ret (List.filter
          (fun m => Number.strictEq (User.id (Message.recipient m)) userId
                    || Number.strictEq (User.id (Message.sender m)) userId)
          ms))%service.

Definition findMatches (profile : Profile.t) (minScore : Number.t)
    : M (list Profile.t) :=
  (let* ps := gets profiles in
   ret (MatchMaker.findMatches profile ps minScore))%service.

(** *** Clients of the service

    A client holds the service object and the [Profile] objects that
    [createProfile] returned; those are the very objects stored in
    [profiles], so [addInterest] called on one of them is seen by the
    store.  [AddInterest i x] is that call on the [i]-th stored
    profile. *)
Inductive call : Type :=
| CreateUser (name email password : string)
| CreateProfile (user : User.t) (age : Number.t) (bio : string)
| AddInterest (i : nat) (interest : string)
| SendMessage (sender : User.t) (recipientId : Number.t) (content : string)
              (now : Z)
| GetMessages (userId : Number.t)
| FindMatches (profile : Profile.t) (minScore : Number.t).

Definition addInterestAt (i : nat) (interest : string) : M unit :=
  fun s =>
    (mk (users s)
        (alter (fun p => Profile.addInterest p interest) i (profiles s))
        (messages s), tt).

Definition step (c : call) (s : t) : t :=
  match c with
  | CreateUser name email password =>
      fst (createUser name email password s)
  | CreateProfile user age bio => fst (createProfile user age bio s)
  | AddInterest i interest => fst (addInterestAt i interest s)
  | SendMessage sender recipientId content now =>
      fst (sendMessage sender recipientId content now s)
  | GetMessages userId => fst (getMessages userId s)
  | FindMatches profile minScore => fst (findMatches profile minScore s)
  end.

(** The state after a sequence of calls, the first call first. *)
Fixpoint runFrom (s : t) (cs : list call) : t :=
  match cs with
  | [] => s
  | c :: cs' => runFrom (step c s) cs'
  end.

Definition run (cs : list call) : t := runFrom new cs.

(** The messages that the [sendMessage] calls of a sequence returned,
    in the order of the calls. *)
Fixpoint sentFrom (s : t) (cs : list call) : list Message.t :=
  match cs with
  | [] => []
  | c :: cs' =>
      match c with
      | SendMessage sender recipientId content now =>
          match snd (sendMessage sender recipientId content now s) with
          | Some m => [m]
          | None => []
          end
      | _ => []
      end ++ sentFrom (step c s) cs'
  end.

(** The users that the [createUser] calls of a sequence returned, in
    the order of the calls. *)
Fixpoint createdFrom (s : t) (cs : list call) : list User.t :=
  match cs with
  | [] => []
  | c :: cs' =>
      match c with
      | CreateUser name email password =>
          [snd (createUser name email password s)]
      | _ => []
      end ++ createdFrom (step c s) cs'
  end.

(** The kinds of calls, to count them in a sequence. *)
Definition isCreateUser (c : call) : bool :=
  match c with CreateUser _ _ _ => true | _ => false end.

Definition isCreateProfile (c : call) : bool :=
  match c with CreateProfile _ _ _ => true | _ => false end.

Definition isSendMessage (c : call) : bool :=
  match c with SendMessage _ _ _ _ => true | _ => false end.

End DatingService.

(** ** src/index.ts

    The demonstration entry point, up to the calls that print. *)
Module Index.

Import DatingService.

Definition alice : User.t :=
  User.mk 1 "Alice" "alice@example.com" "password123".
Definition bob : User.t :=
  User.mk 2 "Bob" "bob@example.com" "password456".
Definition charlie : User.t :=
  User.mk 3 "Charlie" "charlie@example.com" "password789".

(** The calls made on the service and on the profiles it returned;
    the two clock readings are arguments. *)
Definition calls (now1 now2 : Z) : list call :=
  [ CreateUser "Alice" "alice@example.com" "password123";
    CreateUser "Bob" "bob@example.com" "password456";
    CreateUser "Charlie" "charlie@example.com" "password789";
    CreateProfile alice 28 "I love hiking and reading.";
    CreateProfile bob 32 "Passionate about music and travel.";
    CreateProfile charlie 30 "Foodie and movie enthusiast.";
    AddInterest 0 "hiking"; AddInterest 0 "reading"; AddInterest 0 "travel";
    AddInterest 1 "music"; AddInterest 1 "travel"; AddInterest 1 "food";
    AddInterest 2 "food"; AddInterest 2 "movies"; AddInterest 2 "reading";
    SendMessage alice (User.id bob)
      "Hi Bob, I noticed we both like traveling!" now1;
    SendMessage bob (User.id charlie)
      "Hey Charlie, want to grab dinner sometime?" now2 ].

(** [aliceProfile] and [bobProfile] once their interests are added. *)
Definition aliceProfile : Profile.t :=
  Profile.addInterest
    (Profile.addInterest
       (Profile.addInterest
          (Profile.new alice 28 "I love hiking and reading.") "hiking")
       "reading")
    "travel".

Definition bobProfile : Profile.t :=
  Profile.addInterest
    (Profile.addInterest
       (Profile.addInterest
          (Profile.new bob 32 "Passionate about music and travel.") "music")
       "travel")
    "food".

End Index.

(** ** The properties in the words of the specification *)
Module Spec.

(** "Set-intersection count": the number of distinct strings that occur
    in both interest lists. *)
Definition distinctCommon (a b : Profile.t) : nat :=
  size (list_to_set (Profile.interests a) ∩ list_to_set (Profile.interests b)
        : gset string).

(** What the comparisons of numbers mean.  Two numbers are the same
    when they are equal and not NaN; they differ otherwise, so that NaN
    differs from every number, itself included. *)
Definition same (a b : Number.t) : Prop := a = b ∧ a ≠ Number.NaN.

Definition differs (a b : Number.t) : Prop := a ≠ b ∨ a = Number.NaN.

(** [a] is at least [b] in the order of the numbers: minus infinity
    below the finite values in their order, below infinity; NaN is
    neither above nor below anything. *)
Definition atLeast (a b : Number.t) : Prop :=
  match a, b with
  | Number.NaN, _ | _, Number.NaN => False
  | _, Number.NegInfinity => True
  | Number.Infinity, _ => True
  | Number.Finite p, Number.Finite q => (q ≤ p)%Qc
  | _, _ => False
  end.

(** A candidate that [findMatches] is to keep: another user id, and a
    score of the profile against the candidate that reaches the
    threshold. *)
Definition eligible (p : Profile.t) (minScore : Number.t) (c : Profile.t)
    : Prop :=
  differs (User.id (Profile.user c)) (User.id (Profile.user p))
  ∧ atLeast (Z.of_nat (Profile.match_ p c)) minScore.

(** A message of which [u] is the sender or the recipient. *)
Definition involves (u : Number.t) (m : Message.t) : Prop :=
  same (User.id (Message.sender m)) u
  ∨ same (User.id (Message.recipient m)) u.

(** No stored user has the identifier [i]. *)
Definition unknownId (s : DatingService.t) (i : Number.t) : Prop :=
  Forall (λ u, differs (User.id u) i) (DatingService.users s).

(** The identifiers of the stored users are their 1-based positions. *)
Definition idsByPosition (us : list User.t) : Prop :=
  ∀ (i : nat) (u : User.t), us !! i = Some u → User.id u = Z.of_nat (S i).

End Spec.

Arguments Spec.atLeast : simpl never.

#[global] Instance same_dec a b : Decision (Spec.same a b).
Proof. unfold Spec.same. apply _. Defined.

#[global] Instance differs_dec a b : Decision (Spec.differs a b).
Proof. unfold Spec.differs. apply _. Defined.

#[global] Instance atLeast_dec a b : Decision (Spec.atLeast a b).
Proof. destruct a, b; unfold Spec.atLeast; apply _. Defined.

#[global] Instance eligible_dec p minScore c : Decision (Spec.eligible p minScore c).
Proof. unfold Spec.eligible. apply _. Defined.

#[global] Instance unknownId_dec s i : Decision (Spec.unknownId s i).
Proof. unfold Spec.unknownId. apply _. Defined.

#[global] Instance involves_dec u m : Decision (Spec.involves u m).
Proof. unfold Spec.involves. apply _. Defined.

(** ** Concrete inputs used by the examples below *)
Module Sample.

Definition dana : User.t := User.mk 4 "Dana" "dana@example.com" "pw".
Definition eli : User.t := User.mk 5 "Eli" "eli@example.com" "pw".

(** A user built outside the service on an id that is not a number. *)
Definition nobody : User.t := User.mk Number.NaN "Nobody" "nobody@example.com" "pw".

Definition ghost : Profile.t := Profile.new nobody 33 "Nobody here.".

(** The number 1.5. *)
Definition oneAndAHalf : Number.t := Number.Finite (Q2Qc (QArith_base.Qmake 3 2)).

(** A profile to which the same interest was added twice. *)
Definition twice : Profile.t :=
  Profile.addInterest
    (Profile.addInterest (Profile.new dana 41 "Travel, travel.") "travel")
    "travel".

Definition once : Profile.t :=
  Profile.addInterest (Profile.new eli 39 "Travel.") "travel".

(** A profile whose other side lists an interest twice. *)
Definition plain : Profile.t :=
  Profile.addInterest
    (Profile.addInterest (Profile.new dana 41 "") "travel") "food".

Definition doubled : Profile.t :=
  Profile.addInterest
    (Profile.addInterest
       (Profile.addInterest (Profile.new eli 39 "") "food") "food")
    "music".

(** A profile sharing two interests with [Index.aliceProfile]. *)
Definition hiker : Profile.t :=
  Profile.addInterest
    (Profile.addInterest (Profile.new eli 39 "Outdoors.") "travel") "hiking".

(** [plain] with its two interests added in the other order. *)
Definition plainSwapped : Profile.t :=
  Profile.addInterest
    (Profile.addInterest (Profile.new dana 41 "") "food") "travel".

(** [doubled] without the repetition and in another order. *)
Definition single : Profile.t :=
  Profile.addInterest
    (Profile.addInterest (Profile.new eli 39 "") "music") "food".

End Sample.

(** * Properties *)

(** ** Numbers *)

Lemma strictEq_true (a b : Number.t) :
  Number.strictEq a b = true ↔ a = b ∧ a ≠ Number.NaN.
Proof.
  destruct a as [| | |p], b as [| | |q]; unfold Number.strictEq;
    try (split; [discriminate | intros [H1 H2]; congruence]);
    try (split; [intros _; split; [reflexivity | discriminate]
                | reflexivity]).
  rewrite bool_decide_eq_true. split.
  - intros ->. split; [reflexivity | discriminate].
  - intros [[= ->] _]. reflexivity.
Qed.

Lemma strictEq_sym (a b : Number.t) :
  Number.strictEq a b = Number.strictEq b a.
Proof.
  destruct a as [| | |p], b as [| | |q]; unfold Number.strictEq; try done.
  apply bool_decide_ext. split; congruence.
Qed.

Lemma strictEq_ofZ (a b : Z) :
  Number.strictEq (Number.ofZ a) (Number.ofZ b) = bool_decide (a = b).
Proof.
  unfold Number.strictEq, Number.ofZ. apply bool_decide_ext.
  apply Z2Qc_inj_iff.
Qed.

Lemma ofZ_inj (a b : Z) : Number.ofZ a = Number.ofZ b → a = b.
Proof. intros H. apply Z2Qc_inj. unfold Number.ofZ in H. congruence. Qed.

Lemma ge_ofZ (a b : Z) :
  Number.ge (Number.ofZ a) (Number.ofZ b) = bool_decide (b ≤ a).
Proof.
  unfold Number.ge, Number.ofZ. apply bool_decide_ext. symmetry.
  apply Z2Qc_inj_le.
Qed.

Lemma ge_trans (a b c : Number.t) :
  Number.ge a b = true → Number.ge b c = true → Number.ge a c = true.
Proof.
  destruct a as [| | |p], b as [| | |q], c as [| | |r]; unfold Number.ge;
    try done.
  rewrite !bool_decide_eq_true. intros H1 H2. by etrans.
Qed.

(** [===], [!==] and [>=] compute what [same], [differs] and [atLeast]
    say. *)
Lemma strictEq_same (a b : Number.t) :
  Number.strictEq a b = true ↔ Spec.same a b.
Proof. apply strictEq_true. Qed.

Lemma strictEq_differs (a b : Number.t) :
  Number.strictEq a b = false ↔ Spec.differs a b.
Proof.
  unfold Spec.differs. rewrite <- not_true_iff_false, strictEq_true.
  destruct (decide (a = b)); destruct (decide (a = Number.NaN)); tauto.
Qed.

Lemma ge_atLeast (a b : Number.t) :
  Number.ge a b = true ↔ Spec.atLeast a b.
Proof.
  destruct a as [| | |p], b as [| | |q]; unfold Number.ge, Spec.atLeast;
    try (split; [discriminate | tauto]); try tauto.
  apply bool_decide_eq_true.
Qed.

Lemma atLeast_trans (a b c : Number.t) :
  Spec.atLeast a b → Spec.atLeast b c → Spec.atLeast a c.
Proof. rewrite <- !ge_atLeast. apply ge_trans. Qed.

(** On integers the comparisons are [=], [≠] and [≥]. *)
Lemma differs_ofZ (a b : Z) :
  Spec.differs (Number.ofZ a) (Number.ofZ b) ↔ a ≠ b.
Proof.
  rewrite <- strictEq_differs, strictEq_ofZ. apply bool_decide_eq_false.
Qed.

Lemma same_ofZ (a b : Z) :
  Spec.same (Number.ofZ a) (Number.ofZ b) ↔ a = b.
Proof.
  rewrite <- strictEq_same, strictEq_ofZ. apply bool_decide_eq_true.
Qed.

Lemma atLeast_ofZ (a b : Z) :
  Spec.atLeast (Number.ofZ a) (Number.ofZ b) ↔ b ≤ a.
Proof.
  rewrite <- ge_atLeast, ge_ofZ. apply bool_decide_eq_true.
Qed.

(** ** Profile.match *)

Lemma includes_elem_of (arr : list string) (x : string) :
  Profile.includes arr x = true ↔ x ∈ arr.
Proof.
  induction arr as [|y arr IH]; simpl.
  - split; [discriminate | intros H; inversion H].
  - destruct (String.eqb_spec y x) as [->|Hne].
    + split; [intros _; left | done].
    + rewrite IH. split; [by right |].
      intros H. inversion H; subst; [congruence | done].
Qed.

(** The boolean [filter] of the source agrees with the filter by a
    decidable predicate that it reflects. *)
Lemma filter_reflect {A : Type} (f : A → bool) (P : A → Prop)
    `{!∀ x, Decision (P x)} (l : list A) :
  (∀ x, f x = true ↔ P x) → List.filter f l = filter P l.
Proof.
  intros Hf. induction l as [|x l IH]; [done|].
  simpl. rewrite filter_cons, IH.
  destruct (decide (P x)) as [HP|HP].
  - apply Hf in HP. by rewrite HP.
  - destruct (f x) eqn:E; [|done]. apply Hf in E. done.
Qed.

Lemma commonInterests_filter (a b : Profile.t) :
  Profile.commonInterests a b
  = filter (λ x, x ∈ Profile.interests b) (Profile.interests a).
Proof.
  unfold Profile.commonInterests.
  apply filter_reflect. intros x. apply includes_elem_of.
Qed.

(** The entries of a duplicate-free list that occur in another list are
    as many as the strings of the intersection of the two lists, seen as
    sets. *)
Lemma filter_elem_of_size (xs ys : list string) :
  NoDup xs →
  length (filter (λ x, x ∈ ys) xs)
  = size (list_to_set xs ∩ list_to_set ys : gset string).
Proof.
  intros Hnd.
  rewrite <- (size_list_to_set (C := gset string)) by by apply NoDup_filter.
  f_equal. apply set_eq. intros x.
  rewrite elem_of_list_to_set, list_elem_of_filter, elem_of_intersection.
  rewrite !elem_of_list_to_set. tauto.
Qed.

(** C8: for two profiles whose interest lists are [hiking, reading,
    travel] and [music, travel, food], [match] returns 1 in either
    direction, and the one common interest is "travel". *)
Theorem match_hiking_music_example (a b : Profile.t) :
  Profile.interests a = ["hiking"; "reading"; "travel"] →
  Profile.interests b = ["music"; "travel"; "food"] →
  Profile.match_ a b = 1%nat ∧ Profile.match_ b a = 1%nat
  ∧ Profile.commonInterests a b = ["travel"]
  ∧ Profile.commonInterests b a = ["travel"].
Proof.
  intros Ha Hb.
  unfold Profile.match_, Profile.commonInterests.
  rewrite Ha, Hb. repeat split; reflexivity.
Qed.

Lemma match_hiking_music_example_witness :
  Profile.match_ Index.aliceProfile Index.bobProfile = 1%nat
  ∧ Profile.match_ Index.bobProfile Index.aliceProfile = 1%nat
  ∧ Profile.commonInterests Index.aliceProfile Index.bobProfile = ["travel"]
  ∧ Profile.commonInterests Index.bobProfile Index.aliceProfile = ["travel"].
Proof.
  apply (match_hiking_music_example Index.aliceProfile Index.bobProfile);
    reflexivity.
Defined.

(** C1, as stated, fails: a profile that lists "travel" twice scores 2
    against a profile that lists it once, and the latter scores 1 against
    the former. *)
Lemma match_asymmetric_on_duplicates :
  Profile.match_ Sample.twice Sample.once = 2%nat
  ∧ Profile.match_ Sample.once Sample.twice = 1%nat
  ∧ Profile.match_ Sample.twice Sample.once
    ≠ Profile.match_ Sample.once Sample.twice.
Proof.
  split; [reflexivity | split; [reflexivity |]].
  intros H. vm_compute in H. discriminate H.
Qed.

(** C1, amended: for every pair of profiles whose interest lists hold no
    duplicate string, [a.match(b)] equals [b.match(a)]. *)
Theorem match_symmetric_NoDup (a b : Profile.t) :
  NoDup (Profile.interests a) →
  NoDup (Profile.interests b) →
  Profile.match_ a b = Profile.match_ b a.
Proof.
  intros Ha Hb. unfold Profile.match_.
  rewrite !commonInterests_filter.
  rewrite (filter_elem_of_size _ _ Ha), (filter_elem_of_size _ _ Hb).
  f_equal. apply intersection_comm_L.
Qed.

Lemma match_symmetric_NoDup_witness :
  Profile.match_ Index.aliceProfile Index.bobProfile
  = Profile.match_ Index.bobProfile Index.aliceProfile.
Proof.
  apply (match_symmetric_NoDup Index.aliceProfile Index.bobProfile);
    apply (bool_decide_unpack _); vm_compute; exact I.
Defined.

(** C6, as stated, fails: with "travel" listed twice on the receiver's
    side the score is 2, while one string only is common to both lists. *)
Lemma match_counts_repetitions :
  Profile.match_ Sample.twice Sample.once = 2%nat
  ∧ Spec.distinctCommon Sample.twice Sample.once = 1%nat
  ∧ Profile.match_ Sample.twice Sample.once
    ≠ Spec.distinctCommon Sample.twice Sample.once.
Proof.
  assert (Spec.distinctCommon Sample.twice Sample.once = 1%nat) as E
    by (vm_compute; reflexivity).
  rewrite E. split; [reflexivity | split; [reflexivity |]].
  intros H. vm_compute in H. discriminate H.
Qed.

(** C6, amended: when the interest list of [a] holds no duplicate string,
    [a.match(b)] is the number of distinct strings present in both lists,
    whatever repetitions the list of [b] holds. *)
Theorem match_distinct_common (a b : Profile.t) :
  NoDup (Profile.interests a) →
  Profile.match_ a b = Spec.distinctCommon a b.
Proof.
  intros Hnd. unfold Profile.match_, Spec.distinctCommon.
  rewrite commonInterests_filter.
  by apply filter_elem_of_size.
Qed.

Lemma match_distinct_common_witness :
  ¬ NoDup (Profile.interests Sample.doubled)
  ∧ Profile.match_ Sample.plain Sample.doubled
    = Spec.distinctCommon Sample.plain Sample.doubled.
Proof.
  split.
  - apply (bool_decide_eq_false_1 _). vm_compute. reflexivity.
  - apply (match_distinct_common Sample.plain Sample.doubled).
    apply (bool_decide_unpack _). vm_compute. exact I.
Defined.

(** ** MatchMaker.findMatches *)

(** The chain filter, map, filter, map of the source keeps a candidate
    exactly when it is eligible, and keeps the candidates in place. *)
Lemma findMatches_eligible (p : Profile.t) (cs : list Profile.t)
    (minScore : Number.t) :
  MatchMaker.findMatches p cs minScore = filter (Spec.eligible p minScore) cs.
Proof.
  unfold MatchMaker.findMatches.
  induction cs as [|c cs IH]; [done|].
  rewrite filter_cons. simpl.
  destruct (Number.strictEq (User.id (Profile.user c))
              (User.id (Profile.user p))) eqn:Hid; simpl.
  - rewrite IH. rewrite decide_False; [done|].
    intros [Hd _]. apply strictEq_differs in Hd. congruence.
  - apply strictEq_differs in Hid.
    destruct (Number.ge (Z.of_nat (Profile.match_ p c)) minScore) eqn:Hge;
      simpl; rewrite IH.
    + apply ge_atLeast in Hge. rewrite decide_True; [done|]. by split.
    + rewrite decide_False; [done|].
      intros [_ Hs]. apply ge_atLeast in Hs. congruence.
Qed.

(** C2: [findMatches] returns exactly the candidates whose user id
    differs from that of the profile and whose score, computed as
    [profile.match(candidate)], is at least [minScore]; they come in the
    order of the input list, a subsequence of it, whatever their scores. *)
Theorem findMatches_exact_in_order (p : Profile.t) (cs : list Profile.t)
    (minScore : Number.t) :
  MatchMaker.findMatches p cs minScore = filter (Spec.eligible p minScore) cs
  ∧ sublist (MatchMaker.findMatches p cs minScore) cs
  ∧ ∀ c, c ∈ MatchMaker.findMatches p cs minScore ↔
         c ∈ cs
         ∧ Spec.differs (User.id (Profile.user c)) (User.id (Profile.user p))
         ∧ Spec.atLeast (Z.of_nat (Profile.match_ p c)) minScore.
Proof.
  rewrite findMatches_eligible. split; [done|]. split.
  - apply sublist_filter.
  - intros c. rewrite list_elem_of_filter. unfold Spec.eligible. tauto.
Qed.

(** Candidates come back in the order given, not by score: of two
    candidates scoring 1 and 2 against Alice, the first given is the first
    returned. *)
Example findMatches_not_sorted :
  Profile.match_ Index.aliceProfile Index.bobProfile = 1%nat
  ∧ Profile.match_ Index.aliceProfile Sample.hiker = 2%nat
  ∧ MatchMaker.findMatches Index.aliceProfile
      [Index.bobProfile; Sample.hiker] 1
    = [Index.bobProfile; Sample.hiker].
Proof. repeat split; reflexivity. Qed.

(** A profile given among its own candidates, at threshold 0, is left
    out. *)
Example findMatches_self_candidate :
  MatchMaker.findMatches Index.aliceProfile
    [Index.aliceProfile; Index.bobProfile; Index.aliceProfile] 0
  = [Index.bobProfile].
Proof. reflexivity. Qed.

(** C7, as stated, fails: a profile of a user whose id is NaN, given as
    its own candidate at threshold 0, is returned, since NaN differs from
    itself. *)
Lemma findMatches_keeps_NaN_self :
  User.id (Profile.user Sample.ghost) = Number.NaN
  ∧ MatchMaker.findMatches Sample.ghost [Sample.ghost] 0 = [Sample.ghost]
  ∧ Sample.ghost ∈ MatchMaker.findMatches Sample.ghost [Sample.ghost] 0.
Proof.
  split; [reflexivity|].
  assert (MatchMaker.findMatches Sample.ghost [Sample.ghost] 0
          = [Sample.ghost]) as E by (vm_compute; reflexivity).
  rewrite E. split; [reflexivity | left].
Qed.

(** C7, amended: a profile whose user id is not NaN is never an element
    of its own matches, and no returned profile carries its user id,
    whatever the candidates and the threshold. *)
Theorem findMatches_excludes_self (p : Profile.t) (cs : list Profile.t)
    (minScore : Number.t) :
  User.id (Profile.user p) ≠ Number.NaN →
  (p ∉ MatchMaker.findMatches p cs minScore)
  ∧ ∀ q, q ∈ MatchMaker.findMatches p cs minScore →
         User.id (Profile.user q) ≠ User.id (Profile.user p).
Proof.
  intros Hnum. rewrite findMatches_eligible.
  assert (∀ q, q ∈ filter (Spec.eligible p minScore) cs →
               User.id (Profile.user q) ≠ User.id (Profile.user p)) as H.
  { intros q Hq. apply list_elem_of_filter in Hq as [[[Hne|Hnan] _] _];
      [exact Hne | congruence]. }
  split; [|exact H].
  intros Hp. by apply (H p Hp).
Qed.

Lemma findMatches_excludes_self_witness :
  (Index.aliceProfile
   ∉ MatchMaker.findMatches Index.aliceProfile
       [Index.aliceProfile; Index.bobProfile; Index.aliceProfile] 0)
  ∧ ∀ q, q ∈ MatchMaker.findMatches Index.aliceProfile
               [Index.aliceProfile; Index.bobProfile; Index.aliceProfile] 0 →
         User.id (Profile.user q) ≠ User.id (Profile.user Index.aliceProfile).
Proof.
  apply (findMatches_excludes_self Index.aliceProfile
           [Index.aliceProfile; Index.bobProfile; Index.aliceProfile] 0).
  apply (bool_decide_unpack _). vm_compute. exact I.
Defined.

(** ** DatingService *)

Lemma find_id_None (us : list User.t) (i : Number.t) :
  List.find (fun u => Number.strictEq (User.id u) i) us = None
  ↔ Forall (λ u, Spec.differs (User.id u) i) us.
Proof.
  induction us as [|v us IH]; simpl.
  - split; [constructor | done].
  - rewrite Forall_cons. rewrite <- strictEq_differs.
    destruct (Number.strictEq (User.id v) i) eqn:E.
    + split; [discriminate | intros [? _]; discriminate].
    + rewrite IH. tauto.
Qed.

Lemma find_id_Some (us : list User.t) (i : Number.t) (r : User.t) :
  List.find (fun u => Number.strictEq (User.id u) i) us = Some r →
  r ∈ us ∧ User.id r = i.
Proof.
  induction us as [|v us IH]; simpl; [discriminate|].
  destruct (Number.strictEq (User.id v) i) eqn:E.
  - intros [= <-]. split; [left|]. by apply strictEq_true in E as [? _].
  - intros H. destruct (IH H) as [Hin Hid]. split; [by right | done].
Qed.

(** The two outcomes of [sendMessage], by the outcome of the scan. *)
Lemma sendMessage_unknown (s : DatingService.t) (sender : User.t)
    (recipientId : Number.t) (content : string) (now : Z) :
  List.find (fun u => Number.strictEq (User.id u) recipientId) (DatingService.users s) = None →
  DatingService.sendMessage sender recipientId content now s = (s, None).
Proof.
  intros H. unfold DatingService.sendMessage, DatingService.bind,
    DatingService.gets. simpl. by rewrite H.
Qed.

Lemma sendMessage_known (s : DatingService.t) (sender : User.t)
    (recipientId : Number.t) (content : string) (now : Z) (r : User.t) :
  List.find (fun u => Number.strictEq (User.id u) recipientId) (DatingService.users s)
  = Some r →
  DatingService.sendMessage sender recipientId content now s
  = (DatingService.mk (DatingService.users s) (DatingService.profiles s)
       (DatingService.messages s ++ [Message.mk sender r content now]),
     Some (Message.mk sender r content now)).
Proof.
  intros H. unfold DatingService.sendMessage, DatingService.bind,
    DatingService.gets. simpl. by rewrite H.
Qed.

(** C3: when no stored user has the recipient id, [sendMessage] returns
    the absence value and the message store, hence its length, is what
    it was. *)
Theorem sendMessage_unknown_recipient (s : DatingService.t) (sender : User.t)
    (recipientId : Number.t) (content : string) (now : Z) :
  Spec.unknownId s recipientId →
  snd (DatingService.sendMessage sender recipientId content now s) = None
  ∧ DatingService.messages
      (fst (DatingService.sendMessage sender recipientId content now s))
    = DatingService.messages s
  ∧ length (DatingService.messages
      (fst (DatingService.sendMessage sender recipientId content now s)))
    = length (DatingService.messages s).
Proof.
  intros H. apply find_id_None in H.
  rewrite (sendMessage_unknown _ _ _ _ _ H). done.
Qed.

Lemma sendMessage_unknown_recipient_witness :
  snd (DatingService.sendMessage Index.alice 7 "Anyone there?" 30
         (DatingService.run (Index.calls 10 20))) = None
  ∧ DatingService.messages
      (fst (DatingService.sendMessage Index.alice 7 "Anyone there?" 30
              (DatingService.run (Index.calls 10 20))))
    = DatingService.messages (DatingService.run (Index.calls 10 20))
  ∧ length (DatingService.messages
      (fst (DatingService.sendMessage Index.alice 7 "Anyone there?" 30
              (DatingService.run (Index.calls 10 20)))))
    = 2%nat.
Proof.
  apply (sendMessage_unknown_recipient
           (DatingService.run (Index.calls 10 20)) Index.alice 7
           "Anyone there?" 30).
  apply (bool_decide_unpack _). vm_compute. exact I.
Defined.

(** C10: [sendMessage] returns null exactly when no stored user has the
    recipient id; otherwise, whoever the sender is, the message from the
    sender to a stored user with that id is appended to the message store
    and returned. *)
Theorem sendMessage_null_iff_unknown (s : DatingService.t) (sender : User.t)
    (recipientId : Number.t) (content : string) (now : Z) :
  (snd (DatingService.sendMessage sender recipientId content now s) = None
   ↔ Spec.unknownId s recipientId)
  ∧ (¬ Spec.unknownId s recipientId →
     ∃ r, r ∈ DatingService.users s ∧ User.id r = recipientId
          ∧ snd (DatingService.sendMessage sender recipientId content now s)
            = Some (Message.mk sender r content now)
          ∧ DatingService.messages
              (fst (DatingService.sendMessage sender recipientId content now s))
            = DatingService.messages s ++ [Message.mk sender r content now]).
Proof.
  unfold Spec.unknownId. rewrite <- find_id_None.
  destruct (List.find (fun u => Number.strictEq (User.id u) recipientId)
              (DatingService.users s)) as [r|] eqn:E.
  - rewrite (sendMessage_known _ _ _ _ _ _ E). simpl. split.
    + split; discriminate.
    + intros _. exists r. apply find_id_Some in E as [Hin Hid]. done.
  - rewrite (sendMessage_unknown _ _ _ _ _ E). simpl. split; [done|].
    intros H. by destruct H.
Qed.

Lemma sendMessage_null_iff_unknown_witness :
  ∃ r, r ∈ DatingService.users (DatingService.run (Index.calls 10 20))
       ∧ User.id r = 2
       ∧ snd (DatingService.sendMessage Sample.dana 2 "Hello" 30
                (DatingService.run (Index.calls 10 20)))
         = Some (Message.mk Sample.dana r "Hello" 30)
       ∧ DatingService.messages
           (fst (DatingService.sendMessage Sample.dana 2 "Hello" 30
                   (DatingService.run (Index.calls 10 20))))
         = DatingService.messages (DatingService.run (Index.calls 10 20))
           ++ [Message.mk Sample.dana r "Hello" 30].
Proof.
  apply (sendMessage_null_iff_unknown
           (DatingService.run (Index.calls 10 20)) Sample.dana 2 "Hello" 30).
  apply (bool_decide_eq_false_1 _). vm_compute. reflexivity.
Defined.

Lemma getMessages_filter (s : DatingService.t) (u : Number.t) :
  DatingService.getMessages u s
  = (s, filter (Spec.involves u) (DatingService.messages s)).
Proof.
  unfold DatingService.getMessages, DatingService.bind, DatingService.gets,
    DatingService.ret.
  f_equal. apply filter_reflect. intros m.
  rewrite orb_true_iff, !strictEq_same. unfold Spec.involves. tauto.
Qed.

(** [push] appends: the message store grows by the messages that the
    calls returned, in the order of the calls. *)
Lemma runFrom_messages (s : DatingService.t) (cs : list DatingService.call) :
  DatingService.messages (DatingService.runFrom s cs)
  = DatingService.messages s ++ DatingService.sentFrom s cs.
Proof.
  revert s. induction cs as [|c cs IH]; intros s; simpl.
  - by rewrite app_nil_r.
  - rewrite IH. rewrite app_assoc. f_equal.
    destruct c as [n e p|u a b|i x|sender rid content now|uid|p m]; simpl;
      try by rewrite app_nil_r.
    destruct (List.find (fun u => Number.strictEq (User.id u) rid) (DatingService.users s))
      as [r|] eqn:E.
    + by rewrite (sendMessage_known _ _ _ _ _ _ E).
    + rewrite (sendMessage_unknown _ _ _ _ _ E). simpl. by rewrite app_nil_r.
Qed.

(** C4: [getMessages(u)] returns exactly the stored messages of which
    [u] is the sender or the recipient, in the order of the store, which
    is the order in which [sendMessage] inserted them. *)
Theorem getMessages_exact_in_order (s : DatingService.t) (u : Number.t)
    (cs : list DatingService.call) :
  snd (DatingService.getMessages u s)
  = filter (Spec.involves u) (DatingService.messages s)
  ∧ (∀ m, m ∈ snd (DatingService.getMessages u s) ↔
          m ∈ DatingService.messages s
          ∧ (Spec.same (User.id (Message.sender m)) u
             ∨ Spec.same (User.id (Message.recipient m)) u))
  ∧ sublist (snd (DatingService.getMessages u s)) (DatingService.messages s)
  ∧ DatingService.messages (DatingService.runFrom s cs)
    = DatingService.messages s ++ DatingService.sentFrom s cs
  ∧ snd (DatingService.getMessages u (DatingService.run cs))
    = filter (Spec.involves u)
        (DatingService.sentFrom DatingService.new cs).
Proof.
  rewrite !getMessages_filter. simpl.
  split; [done|]. split.
  { intros m. rewrite list_elem_of_filter. unfold Spec.involves. tauto. }
  split; [apply sublist_filter|].
  split; [apply runFrom_messages|].
  unfold DatingService.run. by rewrite runFrom_messages.
Qed.

Lemma createUser_eq (s : DatingService.t) (name email password : string) :
  DatingService.createUser name email password s
  = (DatingService.mk
       (DatingService.users s
        ++ [User.mk (Z.of_nat (length (DatingService.users s)) + 1)
              name email password])
       (DatingService.profiles s) (DatingService.messages s),
     User.mk (Z.of_nat (length (DatingService.users s)) + 1)
       name email password).
Proof. reflexivity. Qed.

Lemma idsByPosition_snoc (us : list User.t) (u : User.t) :
  Spec.idsByPosition us →
  User.id u = Z.of_nat (length us) + 1 →
  Spec.idsByPosition (us ++ [u]).
Proof.
  intros Hus Hu i v Hi.
  destruct (decide (i < length us)%nat) as [Hlt|Hge].
  - rewrite lookup_app_l in Hi by done. by apply Hus.
  - rewrite lookup_app_r in Hi by lia.
    destruct (i - length us)%nat as [|k] eqn:Ek; simpl in Hi; [|done].
    injection Hi as <-. rewrite Hu. f_equal. lia.
Qed.

(** Only [createUser] touches [users], and it appends the user that it
    returns. *)
Lemma step_users (c : DatingService.call) (s : DatingService.t) :
  DatingService.users (DatingService.step c s)
  = DatingService.users s ++ DatingService.createdFrom s [c].
Proof.
  destruct c as [n e p|u a b|i x|sender rid content now|uid|p m]; simpl;
    rewrite ?app_nil_r; try done.
  destruct (List.find (fun u => Number.strictEq (User.id u) rid) (DatingService.users s))
    as [r|] eqn:E.
  - by rewrite (sendMessage_known _ _ _ _ _ _ E).
  - by rewrite (sendMessage_unknown _ _ _ _ _ E).
Qed.

Lemma step_idsByPosition (c : DatingService.call) (s : DatingService.t) :
  Spec.idsByPosition (DatingService.users s) →
  Spec.idsByPosition (DatingService.users (DatingService.step c s)).
Proof.
  intros H. rewrite step_users.
  destruct c; simpl; rewrite ?app_nil_r; try done.
  by apply idsByPosition_snoc.
Qed.

Lemma runFrom_idsByPosition (s : DatingService.t)
    (cs : list DatingService.call) :
  Spec.idsByPosition (DatingService.users s) →
  Spec.idsByPosition (DatingService.users (DatingService.runFrom s cs)).
Proof.
  revert s. induction cs as [|c cs IH]; intros s H; simpl; [done|].
  apply IH. by apply step_idsByPosition.
Qed.

Lemma runFrom_users (s : DatingService.t) (cs : list DatingService.call) :
  DatingService.users (DatingService.runFrom s cs)
  = DatingService.users s ++ DatingService.createdFrom s cs.
Proof.
  revert s. induction cs as [|c cs IH]; intros s; simpl.
  - by rewrite app_nil_r.
  - rewrite IH, step_users. simpl. by rewrite app_nil_r, app_assoc.
Qed.

Lemma idsByPosition_NoDup (us : list User.t) :
  Spec.idsByPosition us → NoDup (User.id <$> us).
Proof.
  intros H. apply NoDup_alt. intros i j x Hi Hj.
  rewrite list_lookup_fmap in Hi, Hj.
  destruct (us !! i) as [u|] eqn:Eu; [|done].
  destruct (us !! j) as [v|] eqn:Ev; [|done].
  simpl in Hi, Hj. apply H in Eu, Ev.
  assert (Z.of_nat (S i) = Z.of_nat (S j)) by (apply ofZ_inj; congruence).
  lia.
Qed.

(** C5: in the state reached by any sequence of calls on a fresh
    service, the stored user ids are their 1-based insertion positions,
    hence unique; the stored users are those that [createUser] returned,
    in order; a further [createUser] returns and stores a user with the
    next id; three [createUser] calls on a fresh service yield the ids
    1, 2, 3 whatever the names, emails and passwords. *)
Theorem createUser_ids_by_insertion (cs : list DatingService.call)
    (name email password : string)
    (n1 e1 p1 n2 e2 p2 n3 e3 p3 : string) :
  Spec.idsByPosition (DatingService.users (DatingService.run cs))
  ∧ NoDup (User.id <$> DatingService.users (DatingService.run cs))
  ∧ DatingService.users (DatingService.run cs)
    = DatingService.createdFrom DatingService.new cs
  ∧ User.id (snd (DatingService.createUser name email password
                    (DatingService.run cs)))
    = Z.of_nat (length (DatingService.users (DatingService.run cs))) + 1
  ∧ DatingService.users
      (fst (DatingService.createUser name email password
              (DatingService.run cs)))
    = DatingService.users (DatingService.run cs)
      ++ [snd (DatingService.createUser name email password
                 (DatingService.run cs))]
  ∧ Spec.idsByPosition
      (DatingService.users
         (fst (DatingService.createUser name email password
                 (DatingService.run cs))))
  ∧ User.id <$> DatingService.createdFrom DatingService.new
      [DatingService.CreateUser n1 e1 p1; DatingService.CreateUser n2 e2 p2;
       DatingService.CreateUser n3 e3 p3]
    = [Number.ofZ 1; Number.ofZ 2; Number.ofZ 3].
Proof.
  assert (Spec.idsByPosition (DatingService.users (DatingService.run cs)))
    as Hinv.
  { apply runFrom_idsByPosition. intros i u Hi. inversion Hi. }
  split; [exact Hinv|].
  split; [by apply idsByPosition_NoDup|].
  split; [apply (runFrom_users DatingService.new)|].
  rewrite createUser_eq. simpl.
  split; [done|]. split; [done|].
  split; [by apply idsByPosition_snoc | reflexivity].
Qed.

(** C9: each operation of the service leaves the stores of the others
    as they were; [getMessages] and [findMatches] leave the whole service
    as it was. *)
Theorem operations_frame (s : DatingService.t)
    (name email password : string)
    (user : User.t) (age : Number.t) (bio : string)
    (sender : User.t) (recipientId : Number.t) (content : string) (now : Z)
    (userId : Number.t) (profile : Profile.t) (minScore : Number.t) :
  (DatingService.profiles (fst (DatingService.createUser name email password s))
   = DatingService.profiles s
   ∧ DatingService.messages
       (fst (DatingService.createUser name email password s))
     = DatingService.messages s)
  ∧ (DatingService.users (fst (DatingService.createProfile user age bio s))
     = DatingService.users s
     ∧ DatingService.messages (fst (DatingService.createProfile user age bio s))
       = DatingService.messages s)
  ∧ (DatingService.users
       (fst (DatingService.sendMessage sender recipientId content now s))
     = DatingService.users s
     ∧ DatingService.profiles
         (fst (DatingService.sendMessage sender recipientId content now s))
       = DatingService.profiles s)
  ∧ fst (DatingService.getMessages userId s) = s
  ∧ fst (DatingService.findMatches profile minScore s) = s.
Proof.
  split; [done|]. split; [done|]. split; [|done].
  destruct (List.find (fun u => Number.strictEq (User.id u) recipientId)
              (DatingService.users s)) as [r|] eqn:E.
  - by rewrite (sendMessage_known _ _ _ _ _ _ E).
  - by rewrite (sendMessage_unknown _ _ _ _ _ E).
Qed.

(** ** The demonstration of src/index.ts *)

(** The three [createUser] calls return [alice], [bob] and [charlie]. *)
Example index_created_users (now1 now2 : Z) :
  DatingService.createdFrom DatingService.new (Index.calls now1 now2)
  = [Index.alice; Index.bob; Index.charlie].
Proof. reflexivity. Qed.

(** The stored profiles of Alice and Bob are [aliceProfile] and
    [bobProfile] with their interests, and Alice matches Bob (on
    "travel") and Charlie (on "reading") at threshold 1. *)
Example index_alice_matches (now1 now2 : Z) :
  DatingService.profiles (DatingService.run (Index.calls now1 now2)) !! 0%nat
  = Some Index.aliceProfile
  ∧ DatingService.profiles (DatingService.run (Index.calls now1 now2)) !! 1%nat
    = Some Index.bobProfile
  ∧ (Profile.user <$>
       snd (DatingService.findMatches Index.aliceProfile 1
              (DatingService.run (Index.calls now1 now2))))
    = [Index.bob; Index.charlie].
Proof. repeat split; reflexivity. Qed.

(** Bob receives Alice's message and sent one to Charlie. *)
Example index_bob_messages (now1 now2 : Z) :
  Message.content <$>
    snd (DatingService.getMessages (User.id Index.bob)
           (DatingService.run (Index.calls now1 now2)))
  = ["Hi Bob, I noticed we both like traveling!";
     "Hey Charlie, want to grab dinner sometime?"].
Proof. reflexivity. Qed.

Example index_password :
  User.verifyPassword Index.alice "password123" = true.
Proof. reflexivity. Qed.

(** * Further properties of the code *)

(** ** Profile: the interest list *)

Lemma foldl_addInterest (p : Profile.t) (xs : list string) :
  foldl Profile.addInterest p xs
  = Profile.mk (Profile.user p) (Profile.age p) (Profile.bio p)
      (Profile.interests p ++ xs).
Proof.
  revert p. induction xs as [|x xs IH]; intros p; simpl.
  - destruct p. simpl. by rewrite app_nil_r.
  - rewrite IH. unfold Profile.addInterest. simpl. by rewrite <- app_assoc.
Qed.

(** X1: the interests added to a profile, one call of [addInterest]
    each, are what [getInterests] returns after those it held, in the
    order of the calls and with every repetition kept; for a profile just
    constructed they are the whole list.  User, age and bio stay. *)
Theorem addInterest_getInterests_roundtrip (p : Profile.t)
    (user : User.t) (age : Number.t) (bio : string) (xs : list string) :
  Profile.getInterests (foldl Profile.addInterest p xs)
  = Profile.getInterests p ++ xs
  ∧ Profile.getInterests
      (foldl Profile.addInterest (Profile.new user age bio) xs) = xs
  ∧ Profile.user (foldl Profile.addInterest p xs) = Profile.user p
  ∧ Profile.age (foldl Profile.addInterest p xs) = Profile.age p
  ∧ Profile.bio (foldl Profile.addInterest p xs) = Profile.bio p.
Proof.
  rewrite !foldl_addInterest. unfold Profile.getInterests. simpl. done.
Qed.

(** ** Profile.match: bounds and algebra *)

Lemma filter_all {A : Type} (P : A → Prop) `{!∀ x, Decision (P x)}
    (l : list A) :
  Forall P l → filter P l = l.
Proof.
  induction 1 as [|x l HP _ IH]; [done|].
  by rewrite filter_cons_True, IH.
Qed.

Lemma filter_none {A : Type} (P : A → Prop) `{!∀ x, Decision (P x)}
    (l : list A) :
  filter P l = [] ↔ Forall (λ x, ¬ P x) l.
Proof.
  induction l as [|x l IH]; [by split; [constructor|]|].
  rewrite filter_cons, Forall_cons.
  destruct (decide (P x)) as [HP|HP]; [|rewrite IH; tauto].
  split; [discriminate | tauto].
Qed.

Lemma match_length (a b : Profile.t) :
  Profile.match_ a b
  = length (filter (λ x, x ∈ Profile.interests b) (Profile.interests a)).
Proof. unfold Profile.match_. by rewrite commonInterests_filter. Qed.

Lemma match_pos_iff (a b : Profile.t) :
  (0 < Profile.match_ a b)%nat
  ↔ ∃ x, x ∈ Profile.interests a ∧ x ∈ Profile.interests b.
Proof.
  rewrite match_length. split.
  - intros H.
    destruct (filter (λ x, x ∈ Profile.interests b) (Profile.interests a))
      as [|x l] eqn:E; [simpl in H; lia|].
    exists x. assert (x ∈ x :: l) as Hx by left.
    rewrite <- E in Hx. apply list_elem_of_filter in Hx. tauto.
  - intros (x & Ha & Hb).
    assert (x ∈ filter (λ x, x ∈ Profile.interests b) (Profile.interests a))
      as Hx by by apply list_elem_of_filter.
    destruct (filter _ _); [inversion Hx | simpl; lia].
Qed.

(** X2: the score never exceeds the number of entries of the receiver's
    own interest list, a profile scores that number against itself, and
    the score is 0 when either list is empty. *)
Theorem match_bounds (a b : Profile.t) :
  (Profile.match_ a b ≤ length (Profile.interests a))%nat
  ∧ Profile.match_ a a = length (Profile.interests a)
  ∧ (Profile.interests a = [] ∨ Profile.interests b = [] →
     Profile.match_ a b = 0%nat).
Proof.
  rewrite !match_length. split; [apply length_filter|]. split.
  - f_equal. apply filter_all. by apply Forall_forall.
  - intros [-> | ->]; [done|].
    replace (filter _ _) with (@nil string); [done|].
    symmetry. apply filter_none. apply Forall_forall.
    intros x _ Hx. inversion Hx.
Qed.

(** X3: the score is 0 exactly when no entry of the receiver's list
    occurs in the other list; hence, repetitions or not, [a.match(b)] is
    positive exactly when [b.match(a)] is. *)
Theorem match_zero_iff_disjoint (a b : Profile.t) :
  (Profile.match_ a b = 0%nat
   ↔ Forall (λ x, x ∉ Profile.interests b) (Profile.interests a))
  ∧ ((0 < Profile.match_ a b)%nat ↔ (0 < Profile.match_ b a)%nat).
Proof.
  split.
  - rewrite match_length, length_zero_iff_nil. apply filter_none.
  - rewrite !match_pos_iff. split; intros (x & H1 & H2); by exists x.
Qed.

(** X4: the score depends on the other profile only through the set of
    its interests, and on the receiver only up to the order of its list. *)
Theorem match_order_and_other_repetitions (a a' b b' : Profile.t) :
  Profile.interests a ≡ₚ Profile.interests a' →
  Profile.interests b ⊆ Profile.interests b' →
  Profile.interests b' ⊆ Profile.interests b →
  Profile.match_ a b = Profile.match_ a' b'.
Proof.
  intros Ha Hb Hb'. rewrite !match_length.
  rewrite (list_filter_iff _ (λ x, x ∈ Profile.interests b'))
    by (intros x; split; [apply Hb | apply Hb']).
  apply Permutation_length. by rewrite Ha.
Qed.

Lemma match_order_and_other_repetitions_witness :
  Profile.match_ Sample.plain Sample.doubled
  = Profile.match_ Sample.plainSwapped Sample.single.
Proof.
  apply (match_order_and_other_repetitions
           Sample.plain Sample.plainSwapped Sample.doubled Sample.single).
  - apply (bool_decide_unpack _). vm_compute. exact I.
  - apply (bool_decide_unpack _). vm_compute. exact I.
  - apply (bool_decide_unpack _). vm_compute. exact I.
Defined.

Lemma filter_elem_of_snoc (xs ys : list string) (x : string) :
  length (filter (λ y, y ∈ ys ++ [x]) xs)
  = (length (filter (λ y, y ∈ ys) xs)
     + if decide (x ∈ ys) then 0 else length (filter (λ y, y = x) xs))%nat.
Proof.
  induction xs as [|z xs IH]; [by destruct (decide (x ∈ ys))|].
  rewrite !filter_cons.
  destruct (decide (z ∈ ys)) as [Hz|Hz].
  - rewrite decide_True by (apply elem_of_app; by left).
    simpl. rewrite IH.
    destruct (decide (x ∈ ys)) as [Hx|Hx]; [done|].
    rewrite decide_False by congruence. done.
  - destruct (decide (z = x)) as [->|Hne].
    + rewrite decide_True by (apply elem_of_app; right; left).
      rewrite decide_False by done. simpl. rewrite IH.
      rewrite decide_False by done. lia.
    + rewrite decide_False.
      2:{ rewrite elem_of_app, list_elem_of_singleton. tauto. }
      rewrite IH. destruct (decide (x ∈ ys)); done.
Qed.

(** X5: how [addInterest] moves the score.  Added to the receiver, an
    interest raises the score by 1 when the other profile lists it and
    leaves it otherwise; added to the other profile, it raises the score
    by the number of its occurrences in the receiver's list when the other
    profile did not list it yet, and leaves it otherwise.  The score never
    decreases. *)
Theorem match_addInterest (a b : Profile.t) (x : string) :
  Profile.match_ (Profile.addInterest a x) b
  = (Profile.match_ a b
     + if decide (x ∈ Profile.interests b) then 1 else 0)%nat
  ∧ Profile.match_ a (Profile.addInterest b x)
    = (Profile.match_ a b
       + if decide (x ∈ Profile.interests b) then 0
         else length (filter (λ y, y = x) (Profile.interests a)))%nat
  ∧ (Profile.match_ a b ≤ Profile.match_ (Profile.addInterest a x) b)%nat
  ∧ (Profile.match_ a b ≤ Profile.match_ a (Profile.addInterest b x))%nat.
Proof.
  rewrite !match_length. simpl.
  rewrite filter_app, length_app, filter_elem_of_snoc.
  rewrite filter_cons, filter_nil.
  destruct (decide (x ∈ Profile.interests b)); simpl; repeat split; lia.
Qed.

(** X6: the common interests that [match] counts are entries of the
    receiver's list, in its order, and are exactly its entries that the
    other list holds; as sets, the common interests of [a] with [b] and of
    [b] with [a] are the same, whatever the repetitions. *)
Theorem commonInterests_characterised (a b : Profile.t) :
  sublist (Profile.commonInterests a b) (Profile.interests a)
  ∧ (∀ x, x ∈ Profile.commonInterests a b
          ↔ x ∈ Profile.interests a ∧ x ∈ Profile.interests b)
  ∧ (list_to_set (Profile.commonInterests a b) : gset string)
    = list_to_set (Profile.commonInterests b a).
Proof.
  rewrite !commonInterests_filter. split; [apply sublist_filter|]. split.
  - intros x. rewrite list_elem_of_filter. tauto.
  - apply set_eq. intros x.
    rewrite !elem_of_list_to_set, !list_elem_of_filter. tauto.
Qed.

(** ** MatchMaker.findMatches: thresholds and candidate lists *)

(** X7: raising the threshold only removes matches: the matches at a
    higher threshold are a subsequence of those at a lower one. *)
Theorem findMatches_threshold_monotone (p : Profile.t)
    (cs : list Profile.t) (lower higher : Number.t) :
  Spec.atLeast higher lower →
  sublist (MatchMaker.findMatches p cs higher)
          (MatchMaker.findMatches p cs lower).
Proof.
  intros Hle. rewrite !findMatches_eligible.
  induction cs as [|c cs IH]; [done|].
  rewrite !filter_cons.
  destruct (decide (Spec.eligible p higher c)) as [[Hid Hs]|Hh].
  - rewrite decide_True by (split; [done | by eapply atLeast_trans]).
    by apply sublist_skip.
  - destruct (decide (Spec.eligible p lower c)); [by apply sublist_cons | done].
Qed.

Lemma findMatches_threshold_monotone_witness :
  sublist
    (MatchMaker.findMatches Index.aliceProfile
       [Index.bobProfile; Sample.hiker] 2)
    (MatchMaker.findMatches Index.aliceProfile
       [Index.bobProfile; Sample.hiker] 1).
Proof.
  apply (findMatches_threshold_monotone Index.aliceProfile
           [Index.bobProfile; Sample.hiker] 1 2).
  apply (bool_decide_unpack _). vm_compute. exact I.
Defined.

(** X8: a threshold of 0 or less filters nothing by score: every
    candidate with another user id is returned, even one sharing no
    interest with the profile. *)
Theorem findMatches_nonpositive_threshold (p : Profile.t)
    (cs : list Profile.t) (minScore : Number.t) :
  Spec.atLeast 0 minScore →
  MatchMaker.findMatches p cs minScore
  = filter (λ c, Spec.differs (User.id (Profile.user c))
                   (User.id (Profile.user p))) cs.
Proof.
  intros Hle. rewrite findMatches_eligible.
  apply list_filter_iff. intros c. unfold Spec.eligible.
  split; [tauto|]. intros H. split; [done|].
  apply (atLeast_trans _ (Number.ofZ 0)); [|exact Hle].
  apply atLeast_ofZ. lia.
Qed.

(** Alice at threshold -3, against a candidate of another user sharing
    no interest with her, herself, and Bob: the first and the last are
    returned. *)
Lemma findMatches_nonpositive_threshold_witness :
  Profile.match_ Index.aliceProfile Sample.doubled = 0%nat
  ∧ MatchMaker.findMatches Index.aliceProfile
      [Sample.doubled; Index.aliceProfile; Index.bobProfile] (-3)
    = [Sample.doubled; Index.bobProfile].
Proof.
  split; [reflexivity|].
  etrans.
  - apply (findMatches_nonpositive_threshold Index.aliceProfile
             [Sample.doubled; Index.aliceProfile; Index.bobProfile] (-3)).
    apply (bool_decide_unpack _). vm_compute. exact I.
  - vm_compute. reflexivity.
Defined.

(** X9: a threshold that the number of entries of the profile's own
    interest list does not reach, be it a greater number or NaN, is
    reached by no score: there are no matches. *)
Theorem findMatches_unreachable_threshold (p : Profile.t)
    (cs : list Profile.t) (minScore : Number.t) :
  ¬ Spec.atLeast (Z.of_nat (length (Profile.interests p))) minScore →
  MatchMaker.findMatches p cs minScore = [].
Proof.
  intros Hlt. rewrite findMatches_eligible.
  apply filter_none. apply Forall_forall. intros c _ [_ Hs].
  apply Hlt.
  apply (atLeast_trans _ (Number.ofZ (Z.of_nat (Profile.match_ p c))));
    [|exact Hs].
  apply atLeast_ofZ.
  pose proof (length_filter (λ x, x ∈ Profile.interests c)
                (Profile.interests p)) as Hb.
  rewrite match_length. lia.
Qed.

Lemma findMatches_unreachable_threshold_witness :
  MatchMaker.findMatches Index.aliceProfile
    [Index.bobProfile; Sample.hiker] 4 = [].
Proof.
  apply (findMatches_unreachable_threshold Index.aliceProfile
           [Index.bobProfile; Sample.hiker] 4).
  apply (bool_decide_unpack _). vm_compute. exact I.
Defined.

(** X10: each candidate is judged on its own: the matches over a
    concatenation are the matches over its parts, concatenated; there are
    no more matches than candidates, and none without candidates. *)
Theorem findMatches_app (p : Profile.t) (cs1 cs2 : list Profile.t)
    (minScore : Number.t) :
  MatchMaker.findMatches p (cs1 ++ cs2) minScore
  = MatchMaker.findMatches p cs1 minScore
    ++ MatchMaker.findMatches p cs2 minScore
  ∧ (length (MatchMaker.findMatches p cs1 minScore) ≤ length cs1)%nat
  ∧ MatchMaker.findMatches p [] minScore = [].
Proof.
  rewrite !findMatches_eligible. split; [apply filter_app|].
  split; [apply length_filter | done].
Qed.

(** X11: matching again among the matches changes nothing. *)
Theorem findMatches_idempotent (p : Profile.t) (cs : list Profile.t)
    (minScore : Number.t) :
  MatchMaker.findMatches p (MatchMaker.findMatches p cs minScore) minScore
  = MatchMaker.findMatches p cs minScore.
Proof.
  rewrite !findMatches_eligible. rewrite list_filter_filter.
  apply list_filter_iff. intros c. tauto.
Qed.

(** ** DatingService: the stores over a sequence of calls *)

(** X12: nothing is ever removed from, reordered in or rewritten in the
    user and message stores: after any sequence of calls the earlier
    stores are prefixes of the later ones. *)
Theorem stores_only_grow (s : DatingService.t)
    (cs : list DatingService.call) :
  DatingService.users s `prefix_of`
    DatingService.users (DatingService.runFrom s cs)
  ∧ DatingService.messages s `prefix_of`
      DatingService.messages (DatingService.runFrom s cs).
Proof.
  rewrite runFrom_users, runFrom_messages.
  split; apply prefix_app_r; done.
Qed.

(** X13: the sizes of the stores count the calls: one user for each
    [createUser], one profile for each [createProfile], and at most one
    message for each [sendMessage]. *)
Theorem store_sizes_count_calls (s : DatingService.t)
    (cs : list DatingService.call) :
  length (DatingService.users (DatingService.runFrom s cs))
  = (length (DatingService.users s)
     + length (List.filter DatingService.isCreateUser cs))%nat
  ∧ length (DatingService.profiles (DatingService.runFrom s cs))
    = (length (DatingService.profiles s)
       + length (List.filter DatingService.isCreateProfile cs))%nat
  ∧ (length (DatingService.messages (DatingService.runFrom s cs))
     ≤ length (DatingService.messages s)
       + length (List.filter DatingService.isSendMessage cs))%nat.
Proof.
  revert s. induction cs as [|c cs IH]; intros s; simpl.
  - repeat split; lia.
  - destruct (IH (DatingService.step c s)) as (Hu & Hp & Hm).
    rewrite Hu, Hp. clear IH Hu Hp.
    destruct c as [n e p|u a b|i x|sender rid content now|uid|p m]; simpl in *;
      rewrite ?length_app, ?length_alter in *; simpl in *;
      try (repeat split; lia).
    destruct (List.find (fun u => Number.strictEq (User.id u) rid) (DatingService.users s))
      as [r|] eqn:E.
    + rewrite (sendMessage_known _ _ _ _ _ _ E) in *. simpl in *.
      rewrite length_app in Hm. simpl in Hm. repeat split; lia.
    + rewrite (sendMessage_unknown _ _ _ _ _ E) in *. simpl in *.
      repeat split; lia.
Qed.

Lemma step_profile_kept (c : DatingService.call) (s : DatingService.t)
    (i : nat) (p : Profile.t) :
  DatingService.profiles s !! i = Some p →
  ∃ p', DatingService.profiles (DatingService.step c s) !! i = Some p'
        ∧ Profile.user p' = Profile.user p
        ∧ Profile.age p' = Profile.age p
        ∧ Profile.bio p' = Profile.bio p
        ∧ Profile.interests p `prefix_of` Profile.interests p'.
Proof.
  intros Hi.
  destruct c as [n e pw|u a b|j x|sender rid content now|uid|q m]; simpl;
    try (exists p; by rewrite ?Hi).
  - exists p. split; [|done]. apply lookup_app_l_Some. exact Hi.
  - destruct (decide (j = i)) as [->|Hne].
    + exists (Profile.addInterest p x). rewrite list_lookup_alter_eq, Hi.
      simpl. repeat split; try done. by apply prefix_app_r.
    + exists p. by rewrite list_lookup_alter_ne.
  - exists p. split; [|done].
    destruct (List.find (fun u => Number.strictEq (User.id u) rid) (DatingService.users s))
      as [r|] eqn:E.
    + by rewrite (sendMessage_known _ _ _ _ _ _ E).
    + by rewrite (sendMessage_unknown _ _ _ _ _ E).
Qed.

(** X14: a stored profile keeps its position, its user, its age and its
    bio through any sequence of calls; its interest list can only be
    extended at the end. *)
Theorem stored_profile_stable (s : DatingService.t)
    (cs : list DatingService.call) (i : nat) (p : Profile.t) :
  DatingService.profiles s !! i = Some p →
  ∃ p', DatingService.profiles (DatingService.runFrom s cs) !! i = Some p'
        ∧ Profile.user p' = Profile.user p
        ∧ Profile.age p' = Profile.age p
        ∧ Profile.bio p' = Profile.bio p
        ∧ Profile.interests p `prefix_of` Profile.interests p'.
Proof.
  revert s p. induction cs as [|c cs IH]; intros s p Hi; simpl.
  - exists p. done.
  - destruct (step_profile_kept c s i p Hi) as (p1 & H1 & Hu & Ha & Hb & Hp).
    destruct (IH _ _ H1) as (p2 & H2 & Hu2 & Ha2 & Hb2 & Hp2).
    exists p2. rewrite Hu2, Ha2, Hb2. repeat split; try done.
    by etrans.
Qed.

Lemma stored_profile_stable_witness :
  ∃ p', DatingService.profiles
          (DatingService.runFrom
             (DatingService.mk [] [Sample.once] [])
             [DatingService.AddInterest 0 "food";
              DatingService.CreateProfile Sample.dana 41 ""]) !! 0%nat
        = Some p'
        ∧ Profile.user p' = Profile.user Sample.once
        ∧ Profile.age p' = Profile.age Sample.once
        ∧ Profile.bio p' = Profile.bio Sample.once
        ∧ Profile.interests Sample.once `prefix_of` Profile.interests p'.
Proof.
  apply (stored_profile_stable (DatingService.mk [] [Sample.once] [])
           [DatingService.AddInterest 0 "food";
            DatingService.CreateProfile Sample.dana 41 ""]
           0 Sample.once).
  reflexivity.
Defined.

(** X15: [DatingService.findMatches] returns stored profiles only, in
    the order of the store: exactly those with another user id than the
    profile's and a score of at least [minScore]; a service without
    profiles has no match for anyone. *)
Theorem service_findMatches_stored (s : DatingService.t) (p : Profile.t)
    (minScore : Number.t) :
  sublist (snd (DatingService.findMatches p minScore s))
          (DatingService.profiles s)
  ∧ (∀ q, q ∈ snd (DatingService.findMatches p minScore s)
          ↔ q ∈ DatingService.profiles s
            ∧ Spec.differs (User.id (Profile.user q))
                (User.id (Profile.user p))
            ∧ Spec.atLeast (Z.of_nat (Profile.match_ p q)) minScore)
  ∧ (DatingService.profiles s = [] →
     snd (DatingService.findMatches p minScore s) = []).
Proof.
  unfold DatingService.findMatches, DatingService.bind, DatingService.gets,
    DatingService.ret. simpl. rewrite findMatches_eligible.
  split; [apply sublist_filter|]. split.
  - intros q. rewrite list_elem_of_filter. unfold Spec.eligible. tauto.
  - by intros ->.
Qed.

(** X16: a profile just made by [createProfile] has no interests, so it
    scores 0 with everyone: in the state after [createProfile], the
    matches of any profile are its matches before, followed by the new
    profile exactly when the threshold is 0 or less and the user ids
    differ.  The user need not be stored in the service. *)
Theorem createProfile_then_findMatches (s : DatingService.t)
    (user : User.t) (age : Number.t) (bio : string) (p : Profile.t)
    (minScore : Number.t) :
  snd (DatingService.createProfile user age bio s)
  = Profile.new user age bio
  ∧ snd (DatingService.findMatches p minScore
           (fst (DatingService.createProfile user age bio s)))
    = snd (DatingService.findMatches p minScore s)
      ++ (if decide (Spec.differs (User.id user) (User.id (Profile.user p))
                     ∧ Spec.atLeast 0 minScore)
          then [Profile.new user age bio] else []).
Proof.
  split; [done|].
  unfold DatingService.findMatches, DatingService.createProfile,
    DatingService.bind, DatingService.gets, DatingService.ret,
    DatingService.pushProfile. simpl.
  rewrite !findMatches_eligible, filter_app. f_equal.
  rewrite filter_cons, filter_nil.
  assert (Profile.match_ p (Profile.new user age bio) = 0%nat) as E0.
  { rewrite match_length. simpl. apply length_zero_iff_nil.
    apply filter_none. apply Forall_forall. intros x _ Hx. inversion Hx. }
  destruct (decide (Spec.differs (User.id user) (User.id (Profile.user p))
                    ∧ Spec.atLeast 0 minScore)) as [[Hid Hle]|Hn].
  - rewrite decide_True; [done|]. split; [done|]. rewrite E0. exact Hle.
  - rewrite decide_False; [done|]. intros [Hid Hle]. rewrite E0 in Hle.
    apply Hn. split; [done | exact Hle].
Qed.

(** ** DatingService: messages *)


(** With ids by position, the scan for an integer id finds the user at
    that position, if there is one; the scan for any other number finds
    nobody. *)
Lemma find_idsByPosition (us : list User.t) (k : Z) :
  Spec.idsByPosition us →
  List.find (fun u => Number.strictEq (User.id u) (Number.ofZ k)) us
  = if decide (1 ≤ k ≤ Z.of_nat (length us)) then us !! Z.to_nat (k - 1)
    else None.
Proof.
  intros Hus.
  destruct (List.find (fun u => Number.strictEq (User.id u) (Number.ofZ k)) us)
    as [r|] eqn:E.
  - apply find_id_Some in E as [Hin Hid].
    apply list_elem_of_lookup in Hin as [j Hj].
    pose proof (Hus j r Hj) as Hpos.
    pose proof (lookup_lt_Some _ _ _ Hj) as Hlt.
    assert (k = Z.of_nat (S j)) as -> by (apply ofZ_inj; congruence).
    rewrite decide_True by lia.
    replace (Z.to_nat (Z.of_nat (S j) - 1)) with j by lia. done.
  - apply find_id_None in E.
    destruct (decide (1 ≤ k ≤ Z.of_nat (length us))) as [Hr|Hr]; [|done].
    destruct (lookup_lt_is_Some_2 us (Z.to_nat (k - 1))) as [u Hu]; [lia|].
    pose proof (Hus _ _ Hu) as Hpos.
    rewrite Forall_lookup in E. specialize (E _ _ Hu). simpl in E.
    rewrite Hpos in E. apply differs_ofZ in E. lia.
Qed.

Lemma find_not_a_position (us : list User.t) (i : Number.t) :
  Spec.idsByPosition us →
  (∀ j : Z, 1 ≤ j ≤ Z.of_nat (length us) → i ≠ Number.ofZ j) →
  List.find (fun u => Number.strictEq (User.id u) i) us = None.
Proof.
  intros Hus Hi.
  destruct (List.find (fun u => Number.strictEq (User.id u) i) us)
    as [r|] eqn:E; [|done].
  apply find_id_Some in E as [Hin Hid].
  apply list_elem_of_lookup in Hin as [j Hj].
  pose proof (Hus j r Hj) as Hpos.
  pose proof (lookup_lt_Some _ _ _ Hj) as Hlt.
  exfalso. apply (Hi (Z.of_nat (S j))); [lia | congruence].
Qed.

Lemma run_idsByPosition (cs : list DatingService.call) :
  Spec.idsByPosition (DatingService.users (DatingService.run cs)).
Proof. apply runFrom_idsByPosition. intros i u Hi. inversion Hi. Qed.

(** X17: in a service driven through its methods from a fresh state,
    [sendMessage] to an integer recipient id between 1 and the number of
    users created so far succeeds, and the recipient of the message is the
    user that was created at that position; to any other number, be it
    an integer out of that range, a fraction, an infinity or NaN, it
    returns null. *)
Theorem sendMessage_resolves_by_position (cs : list DatingService.call)
    (sender : User.t) (k : Z) (recipientId : Number.t) (content : string)
    (now : Z) :
  (1 ≤ k ≤ Z.of_nat (length (DatingService.users (DatingService.run cs))) →
   ∃ r, DatingService.createdFrom DatingService.new cs
          !! Z.to_nat (k - 1) = Some r
        ∧ snd (DatingService.sendMessage sender (Number.ofZ k) content now
                 (DatingService.run cs))
          = Some (Message.mk sender r content now))
  ∧ ((∀ j : Z,
        1 ≤ j ≤ Z.of_nat (length (DatingService.users (DatingService.run cs))) →
        recipientId ≠ Number.ofZ j) →
     snd (DatingService.sendMessage sender recipientId content now
            (DatingService.run cs)) = None).
Proof.
  pose proof (runFrom_users DatingService.new cs) as Hu. simpl in Hu.
  fold (DatingService.run cs) in Hu.
  split; intros Hr.
  - pose proof (find_idsByPosition _ k (run_idsByPosition cs)) as Hf.
    rewrite decide_True in Hf by done.
    destruct (lookup_lt_is_Some_2 (DatingService.users (DatingService.run cs))
                (Z.to_nat (k - 1))) as [r Hk]; [lia|].
    rewrite Hk in Hf. exists r. split; [by rewrite <- Hu|].
    by rewrite (sendMessage_known _ _ _ _ _ _ Hf).
  - pose proof (find_not_a_position _ recipientId (run_idsByPosition cs) Hr)
      as Hf.
    by rewrite (sendMessage_unknown _ _ _ _ _ Hf).
Qed.

Lemma sendMessage_resolves_by_position_witness :
  ∃ r, DatingService.createdFrom DatingService.new (Index.calls 10 20)
         !! Z.to_nat (3 - 1) = Some r
       ∧ snd (DatingService.sendMessage Sample.dana (Number.ofZ 3) "Hello" 30
                (DatingService.run (Index.calls 10 20)))
         = Some (Message.mk Sample.dana r "Hello" 30).
Proof.
  apply (sendMessage_resolves_by_position (Index.calls 10 20)
           Sample.dana 3 Number.NaN "Hello" 30).
  vm_compute. split; discriminate.
Defined.

(** With three users stored, a message to the id 1.5 or to NaN is not
    delivered. *)
Example sendMessage_fraction_or_NaN :
  snd (DatingService.sendMessage Sample.dana Sample.oneAndAHalf "Hello" 30
         (DatingService.run (Index.calls 10 20))) = None
  ∧ snd (DatingService.sendMessage Sample.dana Number.NaN "Hello" 30
           (DatingService.run (Index.calls 10 20))) = None.
Proof. split; vm_compute; reflexivity. Qed.

Lemma step_recipients_stored (c : DatingService.call) (s : DatingService.t) :
  Forall (λ m, Message.recipient m ∈ DatingService.users s)
    (DatingService.messages s) →
  Forall (λ m, Message.recipient m
               ∈ DatingService.users (DatingService.step c s))
    (DatingService.messages (DatingService.step c s)).
Proof.
  intros H.
  destruct c as [n e pw|u a b|j x|sender rid content now|uid|q m]; simpl;
    try done.
  - eapply Forall_impl; [exact H|]. intros m Hm. simpl in Hm.
    apply elem_of_app. by left.
  - destruct (List.find (fun u => Number.strictEq (User.id u) rid) (DatingService.users s))
      as [r|] eqn:E.
    + rewrite (sendMessage_known _ _ _ _ _ _ E). simpl.
      apply Forall_app. split; [done|].
      apply Forall_singleton. simpl. by apply find_id_Some in E as [? _].
    + by rewrite (sendMessage_unknown _ _ _ _ _ E).
Qed.

(** X18: in a service driven through its methods from a fresh state,
    the recipient of every stored message is a stored user, with an
    integer id between 1 and the number of users. *)
Theorem stored_recipients_are_users (cs : list DatingService.call) :
  Forall (λ m, Message.recipient m ∈ DatingService.users (DatingService.run cs)
               ∧ ∃ k : Z,
                   User.id (Message.recipient m) = Number.ofZ k
                   ∧ 1 ≤ k ≤ Z.of_nat (length (DatingService.users
                                                 (DatingService.run cs))))
    (DatingService.messages (DatingService.run cs)).
Proof.
  assert (∀ s, Forall (λ m, Message.recipient m ∈ DatingService.users s)
                 (DatingService.messages s) →
               Forall (λ m, Message.recipient m
                            ∈ DatingService.users (DatingService.runFrom s cs))
                 (DatingService.messages (DatingService.runFrom s cs))) as H.
  { induction cs as [|c cs IH]; intros s Hs; simpl; [done|].
    apply IH. by apply step_recipients_stored. }
  specialize (H DatingService.new (Forall_nil_2 _)).
  fold (DatingService.run cs) in H.
  eapply Forall_impl; [exact H|]. intros m Hm. simpl in Hm.
  split; [done|].
  apply list_elem_of_lookup in Hm as [k Hk].
  pose proof (run_idsByPosition cs k _ Hk) as Hpos.
  pose proof (lookup_lt_Some _ _ _ Hk) as Hlt.
  exists (Z.of_nat (S k)). split; [exact Hpos | lia].
Qed.

(** X19: a message that [sendMessage] returned is, from then on, the
    last message that [getMessages] lists for its sender's id and for the
    recipient id, once even when the two ids are equal; the listings for
    all other ids are as before.  The message carries the sender, the
    content and the clock reading given, and a recipient with the id
    asked for. *)
Theorem sendMessage_then_getMessages (s : DatingService.t) (sender : User.t)
    (recipientId : Number.t) (content : string) (now : Z) (m : Message.t)
    (u : Number.t) :
  snd (DatingService.sendMessage sender recipientId content now s) = Some m →
  snd (DatingService.getMessages u
         (fst (DatingService.sendMessage sender recipientId content now s)))
  = snd (DatingService.getMessages u s)
    ++ (if decide (Spec.same (User.id sender) u ∨ Spec.same recipientId u)
        then [m] else [])
  ∧ Message.sender m = sender
  ∧ User.id (Message.recipient m) = recipientId
  ∧ Message.content m = content
  ∧ Message.timestamp m = now.
Proof.
  intros Hm.
  destruct (List.find (fun u => Number.strictEq (User.id u) recipientId)
              (DatingService.users s)) as [r|] eqn:E.
  2:{ by rewrite (sendMessage_unknown _ _ _ _ _ E) in Hm. }
  rewrite (sendMessage_known _ _ _ _ _ _ E) in *. simpl in Hm.
  injection Hm as <-. apply find_id_Some in E as [_ Hid].
  rewrite !getMessages_filter. simpl.
  split; [|done].
  rewrite filter_app, filter_cons, filter_nil. f_equal.
  destruct (decide (Spec.same (User.id sender) u ∨ Spec.same recipientId u))
    as [H|H].
  - rewrite decide_True; [done|]. unfold Spec.involves. simpl. by rewrite Hid.
  - rewrite decide_False; [done|]. unfold Spec.involves. simpl. by rewrite Hid.
Qed.

Lemma sendMessage_then_getMessages_witness :
  snd (DatingService.getMessages 1
         (fst (DatingService.sendMessage Index.alice 1 "Note to self" 30
                 (DatingService.run (Index.calls 10 20)))))
  = snd (DatingService.getMessages 1 (DatingService.run (Index.calls 10 20)))
    ++ [Message.mk Index.alice Index.alice "Note to self" 30]
  ∧ Message.sender (Message.mk Index.alice Index.alice "Note to self" 30)
    = Index.alice
  ∧ User.id (Message.recipient
               (Message.mk Index.alice Index.alice "Note to self" 30)) = 1
  ∧ Message.content (Message.mk Index.alice Index.alice "Note to self" 30)
    = "Note to self"
  ∧ Message.timestamp (Message.mk Index.alice Index.alice "Note to self" 30)
    = 30.
Proof.
  apply (sendMessage_then_getMessages
           (DatingService.run (Index.calls 10 20)) Index.alice 1
           "Note to self" 30
           (Message.mk Index.alice Index.alice "Note to self" 30) 1).
  reflexivity.
Defined.

(** ** User.verifyPassword *)

(** X20: the user that [createUser] returns is stored at the end of the
    user list, carries the name and the email given, and verifies a
    password exactly when it is, character for character, the one given
    at creation. *)
Theorem createUser_verifyPassword (s : DatingService.t)
    (name email password input : string) :
  last (DatingService.users
          (fst (DatingService.createUser name email password s)))
  = Some (snd (DatingService.createUser name email password s))
  ∧ User.name (snd (DatingService.createUser name email password s)) = name
  ∧ User.email (snd (DatingService.createUser name email password s)) = email
  ∧ (User.verifyPassword
       (snd (DatingService.createUser name email password s)) input = true
     ↔ input = password).
Proof.
  rewrite createUser_eq. simpl. split; [apply last_snoc|].
  split; [done|]. split; [done|].
  unfold User.verifyPassword. simpl. rewrite String.eqb_eq.
  split; congruence.
Qed.

(** ** DatingService: from [createUser] to [sendMessage] *)

Lemma runFrom_app (s : DatingService.t) (cs cs' : list DatingService.call) :
  DatingService.runFrom s (cs ++ cs')
  = DatingService.runFrom (DatingService.runFrom s cs) cs'.
Proof. revert s. induction cs as [|c cs IH]; intros s; simpl; [done | apply IH]. Qed.

(** X21: in a service driven through its methods from a fresh state,
    the id of a user that [createUser] returned keeps naming that user:
    after any further calls, a message sent to that id is delivered with
    that very user as its recipient. *)
Theorem createUser_then_sendMessage (cs cs' : list DatingService.call)
    (name email password : string)
    (sender : User.t) (content : string) (now : Z) :
  snd (DatingService.sendMessage sender
         (User.id (snd (DatingService.createUser name email password
                          (DatingService.run cs))))
         content now
         (DatingService.runFrom
            (fst (DatingService.createUser name email password
                    (DatingService.run cs)))
            cs'))
  = Some (Message.mk sender
            (snd (DatingService.createUser name email password
                    (DatingService.run cs)))
            content now).
Proof.
  set (u := snd (DatingService.createUser name email password
                   (DatingService.run cs))).
  set (s1 := fst (DatingService.createUser name email password
                    (DatingService.run cs))).
  assert (DatingService.runFrom s1 cs'
          = DatingService.run
              (cs ++ DatingService.CreateUser name email password :: cs'))
    as Hrun.
  { unfold DatingService.run. by rewrite runFrom_app. }
  pose proof (run_idsByPosition
                (cs ++ DatingService.CreateUser name email password :: cs'))
    as Hinv.
  rewrite <- Hrun in Hinv.
  assert (DatingService.users (DatingService.runFrom s1 cs')
            !! length (DatingService.users (DatingService.run cs)) = Some u)
    as Hk.
  { rewrite runFrom_users. apply lookup_app_l_Some.
    unfold s1, u. rewrite createUser_eq. simpl.
    by rewrite list_lookup_middle. }
  pose proof (find_idsByPosition _
                (Z.of_nat (length (DatingService.users (DatingService.run cs)))
                 + 1) Hinv) as Hf.
  pose proof (lookup_lt_Some _ _ _ Hk) as Hlt.
  assert (User.id u
          = Number.ofZ
              (Z.of_nat (length (DatingService.users (DatingService.run cs)))
               + 1))
    as Hid by (unfold u; by rewrite createUser_eq).
  rewrite decide_True in Hf by lia.
  replace (Z.to_nat
             (Z.of_nat (length (DatingService.users (DatingService.run cs)))
              + 1 - 1))
    with (length (DatingService.users (DatingService.run cs))) in Hf by lia.
  rewrite Hk in Hf. rewrite Hid.
  by rewrite (sendMessage_known _ _ _ _ _ _ Hf).
Qed.
